(** * mapadroid/mad_apk/apk_storage_db.py: the database-backed APK storage

    A shallow embedding of [APKStorageDatabase] and of the Python
    primitives its methods rely on (name resolution, floor division,
    [range], slicing of a [memoryview], [try]/[except]), followed by the
    properties of the chunked save path. *)

From Stdlib Require Import ZArith Lia List String.
From Stdlib Require Import Strings.Byte.
From stdpp Require Import base list strings pretty.

Import ListNotations.
Local Open Scope string_scope.
Local Open Scope Z_scope.

(** ** Python exceptions and results *)

(** The exceptions that can travel through the module.  [NameError] and
    [ZeroDivisionError] are raised by the interpreter itself,
    [ValueError] by a [BytesIO] that has been closed; [BackendError]
    stands for whatever the database wrapper or the helper raise. *)
Inductive PyExc : Type :=
| NameError (name : string)
| ZeroDivisionError
| ValueError (msg : string)
| BackendError (msg : string).

Inductive Result (A : Type) : Type :=
| Ok (a : A)
| Raise (e : PyExc).

Arguments Ok {A} a.
Arguments Raise {A} e.

Definition is_ok {A : Type} (r : Result A) : bool :=
  match r with
  | Ok _ => true
  | Raise _ => false
  end.

(** ** Pure Python primitives used by the splitting step *)

Module Py.

Abbreviation len l := (Z.of_nat (length l)) (only parsing).

(** [a // b] on Python integers: floor division, raising on a zero
    divisor.  [Z.div] rounds towards minus infinity, as Python does. *)
Definition floordiv (a b : Z) : Result Z :=
  if b =? 0 then Raise ZeroDivisionError else Ok (a / b).

(** [range(n)]: the integers [0 .. n-1], empty when [n <= 0]. *)
Definition range (n : Z) : list Z :=
  map Z.of_nat (seq 0 (Z.to_nat n)).

(** How a slice bound is adjusted to a sequence of length [n]: a
    negative bound counts from the end and is clipped at 0, a bound
    beyond the end is clipped at [n]. *)
Definition adjust_index (n i : Z) : Z :=
  if i <? 0 then Z.max 0 (i + n) else Z.min i n.

(** [l[start:stop]] with the default step. *)
Definition slice {A : Type} (l : list A) (start stop : Z) : list A :=
  let n := len l in
  let lo := adjust_index n start in
  let hi := adjust_index n stop in
  take (Z.to_nat (hi - lo)) (drop (Z.to_nat lo) l).

End Py.

(** ** The splitting step of [save_file]

    [[data.getbuffer()[i * chunk_size:(i + 1) * chunk_size]
       for i in range((len(data.getbuffer()) + chunk_size - 1) // chunk_size)]]

    The comprehension is evaluated in full before the loop over it
    starts. *)
Definition chunked_data_list (data : list byte) (chunk_size : Z)
  : Result (list (list byte)) :=
  match Py.floordiv (Py.len data + chunk_size - 1) chunk_size with
  | Raise e => Raise e
  | Ok n =>
      Ok (map (fun i => Py.slice data (i * chunk_size) ((i + 1) * chunk_size))
              (Py.range n))
  end.

(** The spec's [join]: concatenation of the chunks in the given order. *)
Definition join (chunks : list (list byte)) : list byte := concat chunks.

(** The sum of the lengths of the chunks. *)
Definition total_length (chunks : list (list byte)) : Z :=
  Z.of_nat (list_sum (map length chunks)).

(** The spec's [ceil(n / c)] for a positive [c]. *)
Definition ceil_div (n c : Z) : Z :=
  if n mod c =? 0 then n / c else n / c + 1.

(** The [i]-th window of width [c] of a list: what the slice of the
    comprehension amounts to when the chunk size is positive. *)
Definition window {A : Type} (c : nat) (l : list A) (i : nat) : list A :=
  take c (drop (i * c) l).

(** ** The world the methods run in *)

Inductive LogLevel : Type := DEBUG | INFO | CRITICAL.

(** A record handed to the [storage] logger.  [exc_info] is the exception
    attached by [logger.opt(exception=True)]. *)
Record LogRecord : Type := mkLogRecord {
  level : LogLevel;
  message : string;
  exc_info : option PyExc;
}.

(** The state threaded through every call: the contents of the database
    behind [self.dbc] and the records logged so far (most recent last). *)
Record World (DB : Type) : Type := mkWorld {
  db : DB;
  log : list LogRecord;
}.

Arguments mkWorld {DB} db log.
Arguments db {DB} w.
Arguments log {DB} w.

(** A computation either returns a value or raises, and leaves a world
    behind in both cases. *)
Definition M (DB A : Type) : Type := World DB -> Result A * World DB.

Section Monad.

Context {DB : Type}.

Definition ret {A : Type} (a : A) : M DB A := fun w => (Ok a, w).

Definition raise {A : Type} (e : PyExc) : M DB A := fun w => (Raise e, w).

Definition bind {A B : Type} (m : M DB A) (k : A -> M DB B) : M DB B :=
  fun w =>
    match m w with
    | (Ok a, w') => k a w'
    | (Raise e, w') => (Raise e, w')
    end.

(** A pure step that may raise. *)
Definition lift {A : Type} (r : Result A) : M DB A := fun w => (r, w).

(** [try: body  except: handler]; a bare [except] catches everything. *)
Definition try_except {A : Type} (body : M DB A) (handler : PyExc -> M DB A)
  : M DB A :=
  fun w =>
    match body w with
    | (Ok a, w') => (Ok a, w')
    | (Raise e, w') => handler e w'
    end.

(** [for x in xs: body(x)]. *)
Fixpoint for_each {A : Type} (xs : list A) (body : A -> M DB unit)
  : M DB unit :=
  match xs with
  | [] => ret tt
  | x :: xs' => bind (body x) (fun _ => for_each xs' body)
  end.

(** The world after one more record has been logged. *)
Definition logged (r : LogRecord) (w : World DB) : World DB :=
  mkWorld (db w) (log w ++ [r]).

Definition emit (r : LogRecord) : M DB unit :=
  fun w => (Ok tt, logged r w).

Definition logger_debug (msg : string) : M DB unit :=
  emit (mkLogRecord DEBUG msg None).

Definition logger_info (msg : string) : M DB unit :=
  emit (mkLogRecord INFO msg None).

(** [logger.opt(exception=True).critical(msg)] inside a handler for [e]. *)
Definition logger_critical_exc (e : PyExc) (msg : string) : M DB unit :=
  emit (mkLogRecord CRITICAL msg (Some e)).

End Monad.

Declare Scope py_scope.
Delimit Scope py_scope with py.
Notation "x <- m ;; k" := (bind m (fun x => k))
  (at level 100, m at next level, right associativity) : py_scope.
Notation "m ;;; k" := (bind m (fun _ => k))
  (at level 100, right associativity) : py_scope.

(** ** Name resolution *)

(** What a name of the module can be bound to. *)
Inductive PyObj : Type :=
| ModuleObj (name : string)
| ClassObj (name : string)
| FunctionObj (name : string)
| LoggerObj (name : string)
| StrObj (s : string)
| BuiltinObj (name : string).

(** The names bound at module level once [apk_storage_db.py] has been
    executed: the implicit module attributes, the imports of lines 1-12,
    [logger] (line 14) and the class (line 17). *)
Definition module_globals : list (string * PyObj) :=
  [ ("__name__", StrObj "mapadroid.mad_apk.apk_storage_db");
    ("__doc__", BuiltinObj "None");
    ("__package__", StrObj "mapadroid.mad_apk");
    ("__loader__", BuiltinObj "SourceFileLoader");
    ("__spec__", BuiltinObj "ModuleSpec");
    ("__file__", StrObj "mapadroid/mad_apk/apk_storage_db.py");
    ("__cached__", StrObj "mapadroid/mad_apk/__pycache__/apk_storage_db.pyc");
    ("__builtins__", ModuleObj "builtins");
    ("BytesIO", ClassObj "io.BytesIO");
    ("RLock", FunctionObj "threading.RLock");
    ("Optional", BuiltinObj "typing.Optional");
    ("global_variables", ModuleObj "mapadroid.utils.global_variables");
    ("LoggerEnums", ClassObj "mapadroid.utils.logging.LoggerEnums");
    ("get_logger", FunctionObj "mapadroid.utils.logging.get_logger");
    ("AbstractAPKStorage", ClassObj "AbstractAPKStorage");
    ("APKArch", ClassObj "APKArch");
    ("APKType", ClassObj "APKType");
    ("MADPackages", ClassObj "MADPackages");
    ("generate_filename", FunctionObj "generate_filename");
    ("MadApkHelper", ClassObj "MadApkHelper");
    ("logger", LoggerObj "storage");
    ("APKStorageDatabase", ClassObj "APKStorageDatabase") ].

(** The names of the [builtins] module. *)
Definition builtin_names : list string :=
  [ "ArithmeticError"; "AssertionError"; "AttributeError"; "BaseException";
    "BlockingIOError"; "BrokenPipeError"; "BufferError"; "BytesWarning";
    "ChildProcessError"; "ConnectionAbortedError"; "ConnectionError";
    "ConnectionRefusedError"; "ConnectionResetError"; "DeprecationWarning";
    "EOFError"; "Ellipsis"; "EncodingWarning"; "EnvironmentError";
    "Exception"; "False"; "FileExistsError"; "FileNotFoundError";
    "FloatingPointError"; "FutureWarning"; "GeneratorExit"; "IOError";
    "ImportError"; "ImportWarning"; "IndentationError"; "IndexError";
    "InterruptedError"; "IsADirectoryError"; "KeyError"; "KeyboardInterrupt";
    "LookupError"; "MemoryError"; "ModuleNotFoundError"; "NameError"; "None";
    "NotADirectoryError"; "NotImplemented"; "NotImplementedError"; "OSError";
    "OverflowError"; "PendingDeprecationWarning"; "PermissionError";
    "ProcessLookupError"; "RecursionError"; "ReferenceError";
    "ResourceWarning"; "RuntimeError"; "RuntimeWarning";
    "StopAsyncIteration"; "StopIteration"; "SyntaxError"; "SyntaxWarning";
    "SystemError"; "SystemExit"; "TabError"; "TimeoutError"; "True";
    "TypeError"; "UnboundLocalError"; "UnicodeDecodeError";
    "UnicodeEncodeError"; "UnicodeError"; "UnicodeTranslateError";
    "UnicodeWarning"; "UserWarning"; "ValueError"; "Warning";
    "ZeroDivisionError"; "__build_class__"; "__debug__"; "__doc__";
    "__import__"; "__loader__"; "__name__"; "__package__"; "__spec__";
    "abs"; "aiter"; "all"; "anext"; "any"; "ascii"; "bin"; "bool";
    "breakpoint"; "bytearray"; "bytes"; "callable"; "chr"; "classmethod";
    "compile"; "complex"; "copyright"; "credits"; "delattr"; "dict"; "dir";
    "divmod"; "enumerate"; "eval"; "exec"; "exit"; "filter"; "float";
    "format"; "frozenset"; "getattr"; "globals"; "hasattr"; "hash"; "help";
    "hex"; "id"; "input"; "int"; "isinstance"; "issubclass"; "iter"; "len";
    "license"; "list"; "locals"; "map"; "max"; "memoryview"; "min"; "next";
    "object"; "oct"; "open"; "ord"; "pow"; "print"; "property"; "quit";
    "range"; "repr"; "reversed"; "round"; "set"; "setattr"; "slice";
    "sorted"; "staticmethod"; "str"; "sum"; "super"; "tuple"; "type";
    "vars"; "zip" ].

Fixpoint assoc {V : Type} (name : string) (scope : list (string * V))
  : option V :=
  match scope with
  | [] => None
  | (n, v) :: scope' => if String.eqb n name then Some v else assoc name scope'
  end.

(** Reading a name that is neither a parameter nor assigned in the
    function body: the module's globals are searched, then the builtins;
    a name found in neither raises [NameError]. *)
Definition load_global (name : string) : Result PyObj :=
  match assoc name module_globals with
  | Some v => Ok v
  | None =>
      if existsb (String.eqb name) builtin_names
      then Ok (BuiltinObj name)
      else Raise (NameError name)
  end.

(** ** Rows handed to the database wrapper *)

Inductive SqlValue : Type :=
| SqlInt (z : Z)
| SqlStr (s : string)
| SqlBytes (b : list byte).

(** A Python [dict] literal with string keys, in insertion order. *)
Definition Row : Type := list (string * SqlValue).

(** ** class APKStorageDatabase *)

Section APKStorageDatabase.

Local Open Scope py_scope.

(** What the module imports but does not define is taken as given:
    the two enumerations with their [.value], the result type of the
    package lookup, [generate_filename], the configured
    [global_variables.CHUNK_MAX_SIZE], the three static methods of
    [MadApkHelper], and the [autoexec_insert] method of the wrapper held
    in [self.dbc] (its third argument is the keyword [optype], [None]
    when the call leaves it out).  [generate_filename] is a function of
    its four arguments; the helper and the wrapper may read and change
    the world, and may raise. *)
Context {DB APKType APKArch MADPackages : Type}.
Variable APKType_value : APKType -> SqlValue.
Variable APKArch_value : APKArch -> SqlValue.
Variable generate_filename : APKType -> APKArch -> string -> string -> string.
Variable CHUNK_MAX_SIZE : Z.
Variable MadApkHelper_delete_file :
  PyObj -> APKType -> APKArch -> M DB bool.
Variable MadApkHelper_get_current_version :
  PyObj -> APKType -> APKArch -> M DB (option string).
Variable MadApkHelper_get_current_package_info :
  PyObj -> APKType -> M DB (option MADPackages).
Variable autoexec_insert : string -> Row -> option string -> M DB Z.

(** [__init__]: one debug record; the lock and the wrapper are stored. *)
Definition init : M DB unit :=
  logger_debug "Initializing Database storage".

(** [delete_file] (lines 33-40).  The arguments of the call are
    evaluated left to right, so [session] is read before the helper is
    entered. *)
Definition delete_file (package : APKType) (architecture : APKArch)
  : M DB bool :=
  session <- lift (load_global "session") ;;
  MadApkHelper_delete_file session package architecture.

(** [get_current_version] (lines 42-44). *)
Definition get_current_version (package : APKType) (architecture : APKArch)
  : M DB (option string) :=
  session <- lift (load_global "session") ;;
  MadApkHelper_get_current_version session package architecture.

(** [get_current_package_info] (lines 46-56). *)
Definition get_current_package_info (package : APKType)
  : M DB (option MADPackages) :=
  session <- lift (load_global "session") ;;
  MadApkHelper_get_current_package_info session package.

Definition get_storage_type : string := "db".

Definition reload : M DB unit := ret tt.

Definition shutdown : M DB unit := ret tt.

(** The three dictionaries built by [save_file]. *)
Definition meta_row (filename : string) (file_length : Z) (mimetype : string)
  : Row :=
  [ ("filename", SqlStr filename);
    ("size", SqlInt file_length);
    ("mimetype", SqlStr mimetype) ].

Definition apk_row (new_id : Z) (package : APKType) (architecture : APKArch)
  (version : string) : Row :=
  [ ("filestore_id", SqlInt new_id);
    ("usage", APKType_value package);
    ("arch", APKArch_value architecture);
    ("version", SqlStr version) ].

Definition chunk_row (new_id : Z) (chunked_data : list byte) : Row :=
  [ ("filestore_id", SqlInt new_id);
    ("size", SqlInt (Py.len chunked_data));
    ("data", SqlBytes chunked_data) ].

(** The loop of lines 99-106 over an already built list of chunks. *)
Definition insert_chunks (new_id : Z) (chunks : list (list byte))
  : M DB unit :=
  for_each chunks (fun chunked_data =>
    autoexec_insert "filestore_chunks" (chunk_row new_id chunked_data) None ;;;
    ret tt).

(** The body of the [try] block of [save_file] (lines 81-108).
    [self.delete_file] is looked up on the instance, so the method that
    runs is an argument here; [save_file] below passes the class's own. *)
Definition save_file_try (self_delete_file : APKType -> APKArch -> M DB bool)
  (package : APKType) (architecture : APKArch) (version mimetype : string)
  (data : list byte) : M DB bool :=
  self_delete_file package architecture ;;;
  let file_length := Py.len data in
  let filename := generate_filename package architecture version mimetype in
  new_id <- autoexec_insert "filestore_meta"
              (meta_row filename file_length mimetype) None ;;
  autoexec_insert "mad_apks"
    (apk_row new_id package architecture version) (Some "ON DUPLICATE") ;;;
  logger_info "Starting upload of APK" ;;;
  let chunk_size := CHUNK_MAX_SIZE in
  chunks <- lift (chunked_data_list data chunk_size) ;;
  insert_chunks new_id chunks ;;;
  logger_info "Finished upload of APK" ;;;
  ret true.

(** [save_file] (lines 64-111) with the method bound to
    [self.delete_file] left open.  [retry] is received and not read. *)
Definition save_file_via (self_delete_file : APKType -> APKArch -> M DB bool)
  (package : APKType) (architecture : APKArch) (version mimetype : string)
  (data : list byte) (retry : bool) : M DB bool :=
  try_except
    (save_file_try self_delete_file package architecture version mimetype data)
    (fun e =>
       logger_critical_exc e "Unable to upload APK" ;;;
       ret false).

(** [save_file] on an instance of the class itself. *)
Definition save_file : APKType -> APKArch -> string -> string ->
                       list byte -> bool -> M DB bool :=
  save_file_via delete_file.

(** *** The steps of a save, one by one

    These relations spell out, world by world, what it means for the
    steps of the [try] block to complete or to raise. *)

(** Every chunk insert of the loop returns. *)
Inductive chunks_inserted (new_id : Z)
  : list (list byte) -> World DB -> World DB -> Prop :=
| chunks_inserted_nil w : chunks_inserted new_id [] w w
| chunks_inserted_cons chunk chunks w r w1 w' :
    autoexec_insert "filestore_chunks" (chunk_row new_id chunk) None w
      = (Ok r, w1) ->
    chunks_inserted new_id chunks w1 w' ->
    chunks_inserted new_id (chunk :: chunks) w w'.

(** Some chunk insert raises [e], after the chunks before it have been
    inserted. *)
Definition chunk_insert_raises (new_id : Z) (chunks : list (list byte))
  (w : World DB) (e : PyExc) (w' : World DB) : Prop :=
  exists (before : list (list byte)) chunk rest w1,
    chunks = (before ++ chunk :: rest)%list /\
    chunks_inserted new_id before w w1 /\
    autoexec_insert "filestore_chunks" (chunk_row new_id chunk) None w1
      = (Raise e, w').

Section Steps.

Variable self_delete_file : APKType -> APKArch -> M DB bool.
Variables (package : APKType) (architecture : APKArch).
Variables (version mimetype : string) (data : list byte).

Let filename : string :=
  generate_filename package architecture version mimetype.
Let starting : LogRecord := mkLogRecord INFO "Starting upload of APK" None.
Let finished : LogRecord := mkLogRecord INFO "Finished upload of APK" None.

(** The delete, the metadata insert, the version-record upsert, the
    splitting and every chunk insert complete; [w'] is the world they
    leave. *)
Definition steps_complete (w w' : World DB) : Prop :=
  exists d w1 new_id w2 r w3 chunks w4,
    self_delete_file package architecture w = (Ok d, w1) /\
    autoexec_insert "filestore_meta"
      (meta_row filename (Py.len data) mimetype) None w1 = (Ok new_id, w2) /\
    autoexec_insert "mad_apks"
      (apk_row new_id package architecture version) (Some "ON DUPLICATE") w2
      = (Ok r, w3) /\
    chunked_data_list data CHUNK_MAX_SIZE = Ok chunks /\
    chunks_inserted new_id chunks (logged starting w3) w4 /\
    w' = logged finished w4.

(** Some step raises [e]; [w'] is the world at that moment. *)
Inductive step_raises (w : World DB) (e : PyExc) (w' : World DB) : Prop :=
| delete_raises :
    self_delete_file package architecture w = (Raise e, w') ->
    step_raises w e w'
| meta_insert_raises d w1 :
    self_delete_file package architecture w = (Ok d, w1) ->
    autoexec_insert "filestore_meta"
      (meta_row filename (Py.len data) mimetype) None w1 = (Raise e, w') ->
    step_raises w e w'
| version_upsert_raises d w1 new_id w2 :
    self_delete_file package architecture w = (Ok d, w1) ->
    autoexec_insert "filestore_meta"
      (meta_row filename (Py.len data) mimetype) None w1 = (Ok new_id, w2) ->
    autoexec_insert "mad_apks"
      (apk_row new_id package architecture version) (Some "ON DUPLICATE") w2
      = (Raise e, w') ->
    step_raises w e w'
| splitting_raises d w1 new_id w2 r w3 :
    self_delete_file package architecture w = (Ok d, w1) ->
    autoexec_insert "filestore_meta"
      (meta_row filename (Py.len data) mimetype) None w1 = (Ok new_id, w2) ->
    autoexec_insert "mad_apks"
      (apk_row new_id package architecture version) (Some "ON DUPLICATE") w2
      = (Ok r, w3) ->
    chunked_data_list data CHUNK_MAX_SIZE = Raise e ->
    w' = logged starting w3 ->
    step_raises w e w'
| chunk_write_raises d w1 new_id w2 r w3 chunks :
    self_delete_file package architecture w = (Ok d, w1) ->
    autoexec_insert "filestore_meta"
      (meta_row filename (Py.len data) mimetype) None w1 = (Ok new_id, w2) ->
    autoexec_insert "mad_apks"
      (apk_row new_id package architecture version) (Some "ON DUPLICATE") w2
      = (Ok r, w3) ->
    chunked_data_list data CHUNK_MAX_SIZE = Ok chunks ->
    chunk_insert_raises new_id chunks (logged starting w3) e w' ->
    step_raises w e w'.

End Steps.

(** The record the handler of [save_file] logs for [e]. *)
Definition unable_to_upload (e : PyExc) : LogRecord :=
  mkLogRecord CRITICAL "Unable to upload APK" (Some e).

End APKStorageDatabase.

(** A call of [save_file] with all six arguments, and the runs of a
    sequence of such calls on one instance. *)
Record SaveCall (APKType APKArch : Type) : Type := mkSaveCall {
  call_package : APKType;
  call_architecture : APKArch;
  call_version : string;
  call_mimetype : string;
  call_data : list byte;
  call_retry : bool;
}.

Arguments mkSaveCall {APKType APKArch}.
Arguments call_package {APKType APKArch} _.
Arguments call_architecture {APKType APKArch} _.
Arguments call_version {APKType APKArch} _.
Arguments call_mimetype {APKType APKArch} _.
Arguments call_data {APKType APKArch} _.
Arguments call_retry {APKType APKArch} _.

Fixpoint run_calls {DB APKType APKArch : Type}
  (save : APKType -> APKArch -> string -> string -> list byte -> bool ->
          M DB bool)
  (calls : list (SaveCall APKType APKArch)) (w : World DB)
  : list (Result bool) * World DB :=
  match calls with
  | [] => ([], w)
  | c :: calls' =>
      let '(r, w1) := save (call_package c) (call_architecture c)
                        (call_version c) (call_mimetype c) (call_data c)
                        (call_retry c) w in
      let '(rs, w2) := run_calls save calls' w1 in
      (r :: rs, w2)
  end.

(** ** The substrate and the helper, from the spec *)

#[local] Instance byte_eq_dec : EqDecision byte := Byte.byte_eq_dec.

#[local] Instance SqlValue_eq_dec : EqDecision SqlValue.
Proof. solve_decision. Defined.

Module SpecModel.

(** Modelled from the spec: the relational substrate reached through
    [self.dbc], whose wrapper class is not under src/.  Three tables
    (metadata registry 4.2, version index 4.3, chunk store 4.4) kept in
    storage order, and the counter behind the generated identifiers. *)
Record Tables : Type := mkTables {
  filestore_meta : list Row;
  mad_apks : list Row;
  filestore_chunks : list Row;
  next_id : Z;
}.

Definition empty : Tables := mkTables [] [] [] 1.

(** Modelled from the spec: the ArtifactKey of a version record, the
    pair of its usage-category and architecture columns. *)
Definition row_key (r : Row) : option SqlValue * option SqlValue :=
  (assoc "usage" r, assoc "arch" r).

Definition has_key (k : option SqlValue * option SqlValue) (r : Row) : bool :=
  bool_decide (row_key r = k).

(** Modelled from the spec: [upsert] of 4.3, "if a record exists for
    key, replace its artifact_id and version in place (single logical
    row, same uniqueness constraint); otherwise insert". *)
Fixpoint upsert (r : Row) (table : list Row) : list Row :=
  match table with
  | [] => [r]
  | r' :: table' =>
      if has_key (row_key r) r' then r :: table'
      else r' :: upsert r table'
  end.

(** Modelled from the spec: [autoexec_insert] of the database wrapper
    (not under src/), after section 6: "single-statement insert
    returning a generated identifier; single-statement insert/update
    with conflict-replace semantics keyed by a composite uniqueness
    constraint".  A plain insert that would break the uniqueness
    constraint of the version index is a backend error. *)
Definition autoexec_insert (table : string) (keyvals : Row)
  (optype : option string) : M Tables Z :=
  fun w =>
    let t := db w in
    if String.eqb table "filestore_meta" then
      let new_id := next_id t in
      (Ok new_id,
       mkWorld (mkTables
                  (filestore_meta t ++ [("filestore_id", SqlInt new_id) :: keyvals])
                  (mad_apks t) (filestore_chunks t) (new_id + 1))
               (log w))
    else if String.eqb table "mad_apks" then
      if bool_decide (optype = Some "ON DUPLICATE") then
        (Ok 0,
         mkWorld (mkTables (filestore_meta t) (upsert keyvals (mad_apks t))
                           (filestore_chunks t) (next_id t))
                 (log w))
      else if existsb (has_key (row_key keyvals)) (mad_apks t) then
        (Raise (BackendError "Duplicate entry"), w)
      else
        (Ok 0,
         mkWorld (mkTables (filestore_meta t) (mad_apks t ++ [keyvals])
                           (filestore_chunks t) (next_id t))
                 (log w))
    else if String.eqb table "filestore_chunks" then
      let new_id := next_id t in
      (Ok new_id,
       mkWorld (mkTables (filestore_meta t) (mad_apks t)
                  (filestore_chunks t ++ [("chunk_id", SqlInt new_id) :: keyvals])
                  (new_id + 1))
               (log w))
    else (Raise (BackendError "Unknown table"), w).

Definition references (id : option SqlValue) (r : Row) : bool :=
  bool_decide (assoc "filestore_id" r = id).

(** Modelled from the spec: [MadApkHelper.delete_file] (not under
    src/), after 4.5 [delete]: "resolves key to artifact_id via Version
    Index, then deletes chunks, metadata, and the version record.
    Returns true unconditionally if no matching key was found". *)
Definition MadApkHelper_delete_file (value : Z -> SqlValue)
  (session : PyObj) (package architecture : Z) : M Tables bool :=
  fun w =>
    let t := db w in
    let k := (Some (value package), Some (value architecture)) in
    match find (has_key k) (mad_apks t) with
    | None => (Ok true, w)
    | Some r =>
        let id := assoc "filestore_id" r in
        (Ok true,
         mkWorld (mkTables
                    (List.filter (fun m => negb (references id m)) (filestore_meta t))
                    (List.filter (fun v => negb (has_key k v)) (mad_apks t))
                    (List.filter (fun c => negb (references id c)) (filestore_chunks t))
                    (next_id t))
                 (log w))
    end.

(** Modelled from the spec: a member of the usage-category or of the
    architecture enumeration ([apk_enums] is not under src/), stood for
    by its integer [.value]. *)
Definition enum_value (member : Z) : SqlValue := SqlInt member.

(** Modelled from the spec: [generate_filename] of [utils] (not under
    src/), a "filename derived deterministically from key + version +
    content-type". *)
Definition generate_filename (package architecture : Z)
  (version mimetype : string) : string :=
  pretty package +:+ "__" +:+ version +:+ "__" +:+ pretty architecture
    +:+ "__" +:+ mimetype.

(** The class over this substrate, with the chunk size left open. *)
Definition storage_delete_file : Z -> Z -> M Tables bool :=
  delete_file (MadApkHelper_delete_file enum_value).

Definition storage_save_file_via (chunk_max_size : Z)
  (self_delete_file : Z -> Z -> M Tables bool)
  : Z -> Z -> string -> string -> list byte -> bool -> M Tables bool :=
  save_file_via enum_value enum_value generate_filename chunk_max_size
    autoexec_insert self_delete_file.

Definition storage_save_file (chunk_max_size : Z)
  : Z -> Z -> string -> string -> list byte -> bool -> M Tables bool :=
  save_file enum_value enum_value generate_filename chunk_max_size
    (MadApkHelper_delete_file enum_value) autoexec_insert.

(** A fresh storage, and one that already holds version "0.9" of the
    artifact with key (0, 2) in a single chunk. *)
Definition fresh : World Tables := mkWorld empty [].

Definition stocked : World Tables :=
  mkWorld
    (mkTables
       [ [ ("filestore_id", SqlInt 1); ("filename", SqlStr "0__0.9__2__apk");
           ("size", SqlInt 2); ("mimetype", SqlStr "apk") ] ]
       [ [ ("filestore_id", SqlInt 1); ("usage", SqlInt 0);
           ("arch", SqlInt 2); ("version", SqlStr "0.9") ] ]
       [ [ ("chunk_id", SqlInt 2); ("filestore_id", SqlInt 1);
           ("size", SqlInt 2); ("data", SqlBytes [x58; x59]) ] ]
       3)
    [].


(** The version records stored for a key. *)
Definition version_records (k : option SqlValue * option SqlValue)
  (t : Tables) : list Row :=
  List.filter (has_key k) (mad_apks t).

End SpecModel.

(** ** The payload as a stream

    [save_file] receives an [io.BytesIO].  Above, the payload is the
    content of an open stream; here the stream can also have been closed,
    and then every [data.getbuffer()] raises [ValueError]. *)

Record BytesIO : Type := mkBytesIO {
  closed : bool;
  getvalue : list byte;
}.

(** [data.getbuffer()]. *)
Definition getbuffer (data : BytesIO) : Result (list byte) :=
  if closed data
  then Raise (ValueError "I/O operation on closed file.")
  else Ok (getvalue data).

Section APKStorageDatabaseStream.

Local Open Scope py_scope.

Context {DB APKType APKArch : Type}.
Variable APKType_value : APKType -> SqlValue.
Variable APKArch_value : APKArch -> SqlValue.
Variable generate_filename : APKType -> APKArch -> string -> string -> string.
Variable CHUNK_MAX_SIZE : Z.
Variable autoexec_insert : string -> Row -> option string -> M DB Z.

(** The comprehension of lines 99-100 on a stream: the buffer is taken
    anew, then sliced. *)
Definition chunked_stream (data : BytesIO) (chunk_size : Z)
  : Result (list (list byte)) :=
  match getbuffer data with
  | Raise e => Raise e
  | Ok buffer => chunked_data_list buffer chunk_size
  end.

(** The body of the [try] block (lines 81-108), with the payload as a
    stream: line 82 takes the buffer, and raises if the stream is
    closed. *)
Definition save_file_try_stream
  (self_delete_file : APKType -> APKArch -> M DB bool)
  (package : APKType) (architecture : APKArch) (version mimetype : string)
  (data : BytesIO) : M DB bool :=
  self_delete_file package architecture ;;;
  buffer <- lift (getbuffer data) ;;
  let file_length := Py.len buffer in
  let filename := generate_filename package architecture version mimetype in
  new_id <- autoexec_insert "filestore_meta"
              (meta_row filename file_length mimetype) None ;;
  autoexec_insert "mad_apks"
    (apk_row APKType_value APKArch_value new_id package architecture version)
    (Some "ON DUPLICATE") ;;;
  logger_info "Starting upload of APK" ;;;
  let chunk_size := CHUNK_MAX_SIZE in
  chunks <- lift (chunked_stream data chunk_size) ;;
  insert_chunks autoexec_insert new_id chunks ;;;
  logger_info "Finished upload of APK" ;;;
  ret true.

(** [save_file] (lines 64-111) with the payload as a stream. *)
Definition save_file_via_stream
  (self_delete_file : APKType -> APKArch -> M DB bool)
  (package : APKType) (architecture : APKArch) (version mimetype : string)
  (data : BytesIO) (retry : bool) : M DB bool :=
  try_except
    (save_file_try_stream self_delete_file package architecture version
       mimetype data)
    (fun e =>
       logger_critical_exc e "Unable to upload APK" ;;;
       ret false).

End APKStorageDatabaseStream.

(** ** Sequences of saves *)


(** * Properties *)

(** ** Lemmas on slicing *)

Section Slicing.

Context {A : Type}.
Implicit Types (l : list A) (c k i : nat).

Lemma slice_window (l : list A) (C I : Z) :
  0 < C -> 0 <= I ->
  Py.slice l (I * C) ((I + 1) * C) = window (Z.to_nat C) l (Z.to_nat I).
Proof.
  intros HC HI. unfold Py.slice, Py.adjust_index, window.
  assert (HIC : 0 <= I * C) by nia.
  assert (HIC' : 0 <= (I + 1) * C) by nia.
  destruct (Z.ltb_spec (I * C) 0) as [?|_]; [lia|].
  destruct (Z.ltb_spec ((I + 1) * C) 0) as [?|_]; [lia|].
  replace (Z.to_nat I * Z.to_nat C)%nat with (Z.to_nat (I * C)) by nia.
  destruct (Z.le_gt_cases (Z.of_nat (length l)) (I * C)) as [Hout|Hin].
  - rewrite !(drop_ge l) by lia. by rewrite !take_nil.
  - rewrite (Z.min_l (I * C)) by lia.
    destruct (Z.le_gt_cases ((I + 1) * C) (Z.of_nat (length l))) as [Hfull|Hpart].
    + rewrite Z.min_l by lia. f_equal. lia.
    + rewrite Z.min_r by lia.
      rewrite !take_ge; [done| |]; rewrite length_drop; lia.
Qed.

Lemma windows_shift c l k :
  map (window c l) (seq 1 k) = map (window c (drop c l)) (seq 0 k).
Proof.
  rewrite <- seq_shift, map_map. apply map_ext. intros i.
  unfold window. rewrite drop_drop. do 2 f_equal; lia.
Qed.

Lemma concat_windows c k l :
  (length l <= k * c)%nat ->
  concat (map (window c l) (seq 0 k)) = l.
Proof.
  revert l. induction k as [|k IH]; intros l Hlen.
  - destruct l; [done | simpl in Hlen; lia].
  - change (seq 0 (S k)) with (0%nat :: seq 1 k). cbn [map concat].
    rewrite windows_shift, IH.
    + unfold window. cbn [Nat.mul drop]. apply take_drop.
    + rewrite length_drop. lia.
Qed.

Lemma length_window c l i :
  length (window c l i) = (c `min` (length l - i * c))%nat.
Proof. unfold window. by rewrite length_take, length_drop. Qed.

End Slicing.

(** With a positive chunk size the comprehension never raises and is the
    list of the first [ceil(n/c)] windows. *)
Lemma chunked_data_list_pos (data : list byte) (C : Z) :
  0 < C ->
  chunked_data_list data C =
    Ok (map (window (Z.to_nat C) data)
            (seq 0 (Z.to_nat ((Py.len data + C - 1) / C)))).
Proof.
  intros HC. unfold chunked_data_list, Py.floordiv, Py.range.
  destruct (Z.eqb_spec C 0) as [?|_]; [lia|].
  f_equal. rewrite map_map. apply map_ext_in. intros i _.
  rewrite slice_window by lia. by rewrite Nat2Z.id.
Qed.

Lemma ceil_div_spec (n C : Z) :
  0 <= n -> 0 < C ->
  (n + C - 1) / C = ceil_div n C /\
  (ceil_div n C - 1) * C < n <= ceil_div n C * C.
Proof.
  intros Hn HC. unfold ceil_div.
  pose proof (Z.div_mod n C ltac:(lia)) as Hdm.
  pose proof (Z.mod_pos_bound n C HC) as Hm.
  assert (Hq : 0 <= n / C) by (apply Z.div_pos; lia).
  destruct (Z.eqb_spec (n mod C) 0) as [H0|H0].
  - assert ((n + C - 1) / C = n / C) as ->.
    { symmetry. apply (Z.div_unique _ _ _ (C - 1)); lia. }
    nia.
  - assert ((n + C - 1) / C = n / C + 1) as ->.
    { symmetry. apply (Z.div_unique _ _ _ (n mod C - 1)); lia. }
    nia.
Qed.


Lemma lookup_map_seq {B : Type} (f : nat -> B) (k i : nat) (x : B) :
  map f (seq 0 k) !! i = Some x -> x = f i /\ (i < k)%nat.
Proof.
  change (map f (seq 0 k)) with (f <$> seq 0 k).
  rewrite list_lookup_fmap. intros H.
  destruct (seq 0 k !! i) as [j|] eqn:Hj; [|done].
  apply lookup_seq in Hj as [-> ?]. injection H as <-. done.
Qed.

(** ** The chunk codec *)

(** C2 (round trip): for every payload [P] and every chunk size [C > 0]
    the splitting step of [save_file] returns a list of chunks, and
    joining them in order gives back exactly [P]. *)
Theorem join_chunked_data_list (P : list byte) (C : Z) :
  0 < C ->
  exists chunks, chunked_data_list P C = Ok chunks /\ join chunks = P.
Proof.
  intros HC. eexists. split; [by apply chunked_data_list_pos|].
  unfold join. apply concat_windows.
  destruct (ceil_div_spec (Py.len P) C) as [-> [_ Hle]]; [lia|done|].
  nia.
Qed.

Lemma join_chunked_data_list_witness :
  0 < 2 /\
  exists chunks,
    chunked_data_list [x01; x02; x03; x04; x05] 2 = Ok chunks /\
    join chunks = [x01; x02; x03; x04; x05].
Proof.
  split; [lia|].
  apply (join_chunked_data_list [x01; x02; x03; x04; x05] 2). lia.
Defined.

(** C3 (chunk sizing): for every payload [P] and chunk size [C > 0] the
    splitting step yields exactly [ceil(len(P)/C)] chunks, that is the one
    integer [k] with [(k-1)*C < len(P) <= k*C]; every chunk but the last
    has length exactly [C]; the last chunk, when there is one, has a
    length in [(0, C]]; and the lengths add up to [len(P)]. *)
Theorem chunked_data_list_sizes (P : list byte) (C : Z) :
  0 < C ->
  exists chunks,
    chunked_data_list P C = Ok chunks /\
    Py.len chunks = ceil_div (Py.len P) C /\
    (Py.len chunks - 1) * C < Py.len P <= Py.len chunks * C /\
    (forall (i : nat) (chunk : list byte),
        chunks !! i = Some chunk -> (S i < length chunks)%nat ->
        Py.len chunk = C) /\
    (forall chunk : list byte, last chunks = Some chunk ->
        0 < Py.len chunk <= C) /\
    total_length chunks = Py.len P.
Proof.
  intros HC.
  destruct (ceil_div_spec (Py.len P) C) as [Hk Hbounds]; [lia|done|].
  set (k := Z.to_nat ((Py.len P + C - 1) / C)).
  assert (Hkz : Z.of_nat k = ceil_div (Py.len P) C).
  { unfold k. rewrite Hk. apply Z2Nat.id. nia. }
  exists (map (window (Z.to_nat C) P) (seq 0 k)).
  assert (Hlen : length (map (window (Z.to_nat C) P) (seq 0 k)) = k)
    by (by rewrite length_map, length_seq).
  split; [by apply chunked_data_list_pos|].
  rewrite Hlen. repeat split.
  - done.
  - lia.
  - lia.
  - intros i chunk Hi Hlt.
    apply lookup_map_seq in Hi as [-> _]. rewrite length_window. nia.
  - rewrite last_lookup, Hlen in H.
    apply lookup_map_seq in H as [-> ?]. rewrite length_window. nia.
  - rewrite last_lookup, Hlen in H.
    apply lookup_map_seq in H as [-> ?]. rewrite length_window. lia.
  - unfold total_length. rewrite <- length_concat, concat_windows; [done|]. nia.
Qed.

Lemma chunked_data_list_sizes_witness :
  0 < 2 /\
  exists chunks,
    chunked_data_list [x01; x02; x03; x04; x05] 2 = Ok chunks /\
    Py.len chunks = ceil_div 5 2 /\
    (Py.len chunks - 1) * 2 < 5 <= Py.len chunks * 2 /\
    (forall (i : nat) (chunk : list byte),
        chunks !! i = Some chunk -> (S i < length chunks)%nat ->
        Py.len chunk = 2) /\
    (forall chunk : list byte, last chunks = Some chunk ->
        0 < Py.len chunk <= 2) /\
    total_length chunks = 5.
Proof.
  split; [lia|].
  apply (chunked_data_list_sizes [x01; x02; x03; x04; x05] 2). lia.
Defined.

(** C6: the claim that the splitting step fails whenever the chunk size
    is [<= 0] does not hold for negative sizes: with chunk size [-1] and a
    one-byte payload the comprehension returns one empty chunk. *)
Lemma chunked_data_list_negative_returns :
  -1 <= 0 /\ chunked_data_list [x01] (-1) = Ok [[]].
Proof. split; [lia | reflexivity]. Qed.

(** C6, amended: the splitting step raises exactly when the chunk size is
    0, for every payload, and what it raises is [ZeroDivisionError]; for
    every other chunk size, negative ones included, it returns a list of
    chunks. *)
Theorem chunked_data_list_raises_iff_zero (P : list byte) (C : Z) :
  ((exists e, chunked_data_list P C = Raise e) <-> C = 0) /\
  chunked_data_list P 0 = Raise ZeroDivisionError /\
  (forall e, chunked_data_list P C = Raise e -> e = ZeroDivisionError).
Proof.
  unfold chunked_data_list, Py.floordiv.
  destruct (Z.eqb_spec C 0) as [->|Hne]; cbn.
  - split; [|split].
    + split; [done | eauto].
    + done.
    + by intros e [= <-].
  - split; [|split].
    + split; [by intros [e ?] | done].
    + done.
    + done.
Qed.

Lemma chunked_data_list_raises_iff_zero_witness :
  (exists e, chunked_data_list [x01; x02] 0 = Raise e) /\
  chunked_data_list [x01; x02] 0 = Raise ZeroDivisionError.
Proof.
  pose proof (chunked_data_list_raises_iff_zero [x01; x02] 0) as [[_ H] [H0 _]].
  split; [by apply H | exact H0].
Defined.

Lemma chunked_data_list_nonzero (data : list byte) (C : Z) :
  C <> 0 -> exists chunks, chunked_data_list data C = Ok chunks.
Proof.
  intros HC. unfold chunked_data_list, Py.floordiv.
  destruct (Z.eqb_spec C 0) as [?|_]; [done|]. by eexists.
Qed.

(** ** The monad *)

Section MonadFacts.

Context {DB : Type}.
Local Open Scope py_scope.

Lemma bind_ok_inv {A B : Type} (m : M DB A) (k : A -> M DB B) w b w' :
  bind m k w = (Ok b, w') <->
  exists a w1, m w = (Ok a, w1) /\ k a w1 = (Ok b, w').
Proof.
  unfold bind. destruct (m w) as [[a|e] w1]; split.
  - intros H. by exists a, w1.
  - by intros (? & ? & [= <- <-] & ?).
  - done.
  - by intros (? & ? & ? & ?).
Qed.

Lemma bind_raise_inv {A B : Type} (m : M DB A) (k : A -> M DB B) w e w' :
  bind m k w = (Raise e, w') <->
  m w = (Raise e, w') \/
  exists a w1, m w = (Ok a, w1) /\ k a w1 = (Raise e, w').
Proof.
  unfold bind. destruct (m w) as [[a|e1] w1]; split.
  - intros H. right. by exists a, w1.
  - by intros [?|(? & ? & [= <- <-] & ?)].
  - intros [= -> ->]. by left.
  - intros [[= -> ->]|(? & ? & ? & ?)]; done.
Qed.

Lemma load_global_session : load_global "session" = Raise (NameError "session").
Proof. reflexivity. Qed.

End MonadFacts.

(** ** The methods of the class *)

Section StorageFacts.

Local Open Scope py_scope.

Context {DB APKType APKArch MADPackages : Type}.
Variable APKType_value : APKType -> SqlValue.
Variable APKArch_value : APKArch -> SqlValue.
Variable generate_filename : APKType -> APKArch -> string -> string -> string.
Variable CHUNK_MAX_SIZE : Z.
Variable MadApkHelper_delete_file :
  PyObj -> APKType -> APKArch -> M DB bool.
Variable MadApkHelper_get_current_version :
  PyObj -> APKType -> APKArch -> M DB (option string).
Variable MadApkHelper_get_current_package_info :
  PyObj -> APKType -> M DB (option MADPackages).
Variable autoexec_insert : string -> Row -> option string -> M DB Z.

Local Abbreviation delete_file' :=
  (delete_file MadApkHelper_delete_file).
Local Abbreviation get_current_version' :=
  (get_current_version MadApkHelper_get_current_version).
Local Abbreviation get_current_package_info' :=
  (get_current_package_info MadApkHelper_get_current_package_info).
Local Abbreviation insert_chunks' := (insert_chunks autoexec_insert).
Local Abbreviation chunks_inserted' := (chunks_inserted autoexec_insert).
Local Abbreviation chunk_insert_raises' :=
  (chunk_insert_raises autoexec_insert).
Local Abbreviation save_file_try' :=
  (save_file_try APKType_value APKArch_value generate_filename
     CHUNK_MAX_SIZE autoexec_insert).
Local Abbreviation save_file_via' :=
  (save_file_via APKType_value APKArch_value generate_filename
     CHUNK_MAX_SIZE autoexec_insert).
Local Abbreviation save_file' :=
  (save_file APKType_value APKArch_value generate_filename
     CHUNK_MAX_SIZE MadApkHelper_delete_file autoexec_insert).
Local Abbreviation steps_complete' :=
  (steps_complete APKType_value APKArch_value generate_filename
     CHUNK_MAX_SIZE autoexec_insert).
Local Abbreviation step_raises' :=
  (step_raises APKType_value APKArch_value generate_filename
     CHUNK_MAX_SIZE autoexec_insert).

(** *** The three delegating methods *)

Lemma delete_file_raises package architecture (w : World DB) :
  delete_file' package architecture w = (Raise (NameError "session"), w).
Proof. reflexivity. Qed.

(** C10: [delete_file], [get_current_version] and
    [get_current_package_info] raise [NameError] for the name [session]
    on every input and in every world, whatever the helper would do;
    none of them returns a value, and the world is left as it was. *)
Theorem session_name_error package architecture (w : World DB) :
  delete_file' package architecture w = (Raise (NameError "session"), w) /\
  get_current_version' package architecture w
    = (Raise (NameError "session"), w) /\
  get_current_package_info' package w = (Raise (NameError "session"), w) /\
  is_ok (delete_file' package architecture w).1 = false /\
  is_ok (get_current_version' package architecture w).1 = false /\
  is_ok (get_current_package_info' package w).1 = false.
Proof. repeat split. Qed.

(** *** The chunk loop *)

Lemma insert_chunks_ok new_id chunks (w w' : World DB) u :
  insert_chunks' new_id chunks w = (Ok u, w') <->
  chunks_inserted' new_id chunks w w'.
Proof.
  destruct u. revert w. induction chunks as [|chunk chunks IH]; intros w.
  - split.
    + intros [= <-]. constructor.
    + inversion 1. reflexivity.
  - unfold insert_chunks in *. cbn [for_each]. rewrite bind_ok_inv. split.
    + intros ([] & w1 & Hc & Hrest).
      apply bind_ok_inv in Hc as (r & w2 & Hins & [= <-]).
      econstructor; [exact Hins|]. by apply IH.
    + inversion 1 as [|? ? ? r w1 ? Hins Hrest]; subst.
      exists tt, w1. split; [|by apply IH].
      apply bind_ok_inv. by exists r, w1.
Qed.

Lemma insert_chunks_raise new_id chunks (w w' : World DB) e :
  insert_chunks' new_id chunks w = (Raise e, w') <->
  chunk_insert_raises' new_id chunks w e w'.
Proof.
  revert w. induction chunks as [|chunk chunks IH]; intros w.
  - split; [done|]. intros (before & ? & ? & ? & Heq & _).
    by destruct before.
  - unfold insert_chunks in *. cbn [for_each]. rewrite bind_raise_inv. split.
    + intros [Hc|([] & w1 & Hc & Hrest)].
      * apply bind_raise_inv in Hc as [Hins|(? & ? & _ & ?)]; [|done].
        exists [], chunk, chunks, w. repeat split; [constructor|done].
      * apply bind_ok_inv in Hc as (r & w2 & Hins & [= <-]).
        apply IH in Hrest as (before & c & rest & w3 & -> & Hbefore & Hraise).
        exists (chunk :: before), c, rest, w3. repeat split; [|done].
        econstructor; [exact Hins | exact Hbefore].
    + intros ([|c0 before] & c & rest & w3 & Heq & Hbefore & Hraise).
      * injection Heq as <- <-. inversion Hbefore; subst.
        left. apply bind_raise_inv. by left.
      * injection Heq as <- ->.
        inversion Hbefore as [|? ? ? r w1 ? Hins Hrest]; subst.
        right. exists tt, w1. split.
        -- apply bind_ok_inv. by exists r, w1.
        -- apply IH. by exists before, c, rest, w3.
Qed.

(** *** The [try] block *)

Section Save.

Variable self_delete_file : APKType -> APKArch -> M DB bool.
Variables (package : APKType) (architecture : APKArch).
Variables (version mimetype : string) (data : list byte).

Local Abbreviation body :=
  (save_file_try' self_delete_file package architecture version mimetype
     data).
Local Abbreviation complete :=
  (steps_complete' self_delete_file package architecture version mimetype
     data).
Local Abbreviation raises :=
  (step_raises' self_delete_file package architecture version mimetype
     data).

Lemma save_file_try_ok (w w' : World DB) b :
  body w = (Ok b, w') <-> b = true /\ complete w w'.
Proof.
  unfold save_file_try, steps_complete. split.
  - intros H.
    apply bind_ok_inv in H as (d & w1 & Hd & H).
    apply bind_ok_inv in H as (new_id & w2 & Hm & H).
    apply bind_ok_inv in H as (r & w3 & Hv & H).
    apply bind_ok_inv in H as ([] & ? & [= <-] & H).
    apply bind_ok_inv in H as (chunks & ? & Hs & H).
    unfold lift in Hs. injection Hs as Hs <-.
    apply bind_ok_inv in H as (u & w4 & Hi & H).
    apply bind_ok_inv in H as ([] & ? & [= <-] & [= <- <-]).
    apply insert_chunks_ok in Hi.
    split; [done|]. by exists d, w1, new_id, w2, r, w3, chunks, w4.
  - intros (-> & d & w1 & new_id & w2 & r & w3 & chunks & w4 &
            Hd & Hm & Hv & Hs & Hi & ->).
    apply bind_ok_inv. exists d, w1. split; [done|].
    apply bind_ok_inv. exists new_id, w2. split; [done|].
    apply bind_ok_inv. exists r, w3. split; [done|].
    apply bind_ok_inv. eexists tt, _. split; [reflexivity|].
    apply bind_ok_inv. eexists chunks, _. split; [by unfold lift; rewrite Hs|].
    apply bind_ok_inv. exists tt, w4. split; [by apply insert_chunks_ok|].
    apply bind_ok_inv. eexists tt, _. split; reflexivity.
Qed.

Lemma save_file_try_raise (w w' : World DB) e :
  body w = (Raise e, w') <-> raises w e w'.
Proof.
  unfold save_file_try. split.
  - intros H.
    apply bind_raise_inv in H as [Hd|(d & w1 & Hd & H)];
      [by apply delete_raises|].
    apply bind_raise_inv in H as [Hm|(new_id & w2 & Hm & H)];
      [by eapply meta_insert_raises|].
    apply bind_raise_inv in H as [Hv|(r & w3 & Hv & H)];
      [by eapply version_upsert_raises|].
    apply bind_raise_inv in H as [?|([] & ? & [= <-] & H)]; [done|].
    apply bind_raise_inv in H as [Hs|(chunks & ? & Hs & H)].
    { unfold lift in Hs. injection Hs as Hs <-.
      by eapply splitting_raises. }
    unfold lift in Hs. injection Hs as Hs <-.
    apply bind_raise_inv in H as [Hi|(u & w4 & Hi & H)].
    { apply insert_chunks_raise in Hi. by eapply chunk_write_raises. }
    apply bind_raise_inv in H as [?|([] & ? & [= <-] & ?)]; done.
  - intros [Hd|d w1 Hd Hm|d w1 new_id w2 Hd Hm Hv
           |d w1 new_id w2 r w3 Hd Hm Hv Hs ->
           |d w1 new_id w2 r w3 chunks Hd Hm Hv Hs Hi].
    + apply bind_raise_inv. by left.
    + apply bind_raise_inv. right. exists d, w1. split; [done|].
      apply bind_raise_inv. by left.
    + apply bind_raise_inv. right. exists d, w1. split; [done|].
      apply bind_raise_inv. right. exists new_id, w2. split; [done|].
      apply bind_raise_inv. by left.
    + apply bind_raise_inv. right. exists d, w1. split; [done|].
      apply bind_raise_inv. right. exists new_id, w2. split; [done|].
      apply bind_raise_inv. right. exists r, w3. split; [done|].
      apply bind_raise_inv. right. eexists tt, _. split; [reflexivity|].
      apply bind_raise_inv. left. by unfold lift; rewrite Hs.
    + apply bind_raise_inv. right. exists d, w1. split; [done|].
      apply bind_raise_inv. right. exists new_id, w2. split; [done|].
      apply bind_raise_inv. right. exists r, w3. split; [done|].
      apply bind_raise_inv. right. eexists tt, _. split; [reflexivity|].
      apply bind_raise_inv. right. eexists chunks, _.
      split; [by unfold lift; rewrite Hs|].
      apply bind_raise_inv. left. by apply insert_chunks_raise.
Qed.

(** What the handler does with an exception of the [try] block. *)
Lemma save_file_via_caught (w w1 : World DB) e retry :
  body w = (Raise e, w1) ->
  save_file_via' self_delete_file package architecture version mimetype
    data retry w
  = (Ok false, logged (unable_to_upload e) w1).
Proof. intros H. unfold save_file_via, try_except. by rewrite H. Qed.

Lemma save_file_via_returned (w w1 : World DB) b retry :
  body w = (Ok b, w1) ->
  save_file_via' self_delete_file package architecture version mimetype
    data retry w
  = (Ok b, w1).
Proof. intros H. unfold save_file_via, try_except. by rewrite H. Qed.

(** C4: [save_file] never lets an exception out; it returns true
    exactly when the delete, the metadata insert, the version-record
    upsert, the splitting and every chunk insert have completed; when
    any of these steps raises, the exception is caught by the handler
    and the result is false; and nothing is rolled back: the world
    left behind is the world at the moment of the exception, with one
    critical record added to the log. *)
Theorem save_file_true_iff_steps_complete (retry : bool) (w : World DB) :
  (exists b w',
      save_file_via' self_delete_file package architecture version
        mimetype data retry w = (Ok b, w')) /\
  (forall w',
      save_file_via' self_delete_file package architecture version
        mimetype data retry w = (Ok true, w')
      <-> complete w w') /\
  (forall e w1,
      raises w e w1 ->
      save_file_via' self_delete_file package architecture version
        mimetype data retry w
      = (Ok false, logged (unable_to_upload e) w1) /\
      db (logged (unable_to_upload e) w1) = db w1) /\
  (forall w',
      save_file_via' self_delete_file package architecture version
        mimetype data retry w = (Ok false, w') ->
      exists e w1, raises w e w1 /\ w' = logged (unable_to_upload e) w1).
Proof.
  destruct (body w) as [[b|e] w1] eqn:Hbody.
  - pose proof Hbody as Hok. apply save_file_try_ok in Hok as [-> Hc].
    rewrite (save_file_via_returned _ _ _ retry Hbody).
    split; [by eauto|]. split; [|split].
    + intros w'. split.
      * by intros [= <-].
      * intros Hc'.
        assert (body w = (Ok true, w')) as Hbody'
          by (by apply save_file_try_ok).
        congruence.
    + intros e w2 Hr. apply save_file_try_raise in Hr. congruence.
    + intros w' [=].
  - pose proof Hbody as Hr. apply save_file_try_raise in Hr.
    rewrite (save_file_via_caught _ _ _ retry Hbody).
    split; [by eauto|]. split; [|split].
    + intros w'. split; [done|].
      intros Hc.
      assert (body w = (Ok true, w')) as Hbody'
        by (by apply save_file_try_ok).
      congruence.
    + intros e' w2 Hr'. apply save_file_try_raise in Hr'.
      assert (e' = e /\ w2 = w1) as [-> ->] by (split; congruence).
      done.
    + intros w' [= <-]. by exists e, w1.
Qed.

(** C5, amended: a failure of step 1 aborts the save.  If the delete
    raises, no later step runs: the exception goes straight to the
    handler, [save_file] returns false, and the world is the one the
    delete left, with the critical record added. *)
Theorem save_file_delete_failure_aborts (retry : bool) (w w1 : World DB) e :
  self_delete_file package architecture w = (Raise e, w1) ->
  save_file_via' self_delete_file package architecture version mimetype
    data retry w
  = (Ok false, logged (unable_to_upload e) w1).
Proof.
  intros Hd. apply save_file_via_caught, save_file_try_raise.
  by apply delete_raises.
Qed.

End Save.

(** *** [save_file] on the class itself *)

Lemma save_file_eq package architecture version mimetype data retry
  (w : World DB) :
  save_file' package architecture version mimetype data retry w
  = (Ok false, logged (unable_to_upload (NameError "session")) w).
Proof. reflexivity. Qed.

(** C1: for every package, architecture, version, mimetype, payload and
    retry flag, and whatever the helper and the database wrapper do,
    [save_file] returns false: its first step, [delete_file], raises
    [NameError] for [session], the handler turns that into false, and no
    insert is reached, so the database is the one the call started
    with. *)
Theorem save_file_returns_false package architecture version mimetype data
  retry (w : World DB) :
  delete_file' package architecture w = (Raise (NameError "session"), w) /\
  step_raises' delete_file' package architecture version mimetype data
    w (NameError "session") w /\
  save_file' package architecture version mimetype data retry w
  = (Ok false, logged (unable_to_upload (NameError "session")) w) /\
  db (save_file' package architecture version mimetype data retry w).2
  = db w.
Proof.
  split; [reflexivity|]. split; [|split; reflexivity].
  apply delete_raises. reflexivity.
Qed.

(** C9: the retry flag is not read.  Two runs of [save_file] that
    differ only in [retry] give the same return value and the same
    final world; this holds for the class's own [delete_file] and for any
    other method bound to [self.delete_file]. *)
Theorem save_file_retry_ignored package architecture version mimetype data
  (w : World DB) :
  save_file' package architecture version mimetype data true w
  = save_file' package architecture version mimetype data false w /\
  (forall self_delete_file retry1 retry2,
      save_file_via' self_delete_file package architecture version mimetype
        data retry1 w
      = save_file_via' self_delete_file package architecture version mimetype
          data retry2 w).
Proof.
  split; [reflexivity|].
  intros self_delete_file retry1 retry2. unfold save_file_via. reflexivity.
Qed.

(** A sequence of [save_file] calls leaves the database untouched, and
    every call of it returns false. *)
Lemma run_calls_save_file (calls : list (SaveCall APKType APKArch))
  (w : World DB) :
  db (run_calls save_file' calls w).2 = db w /\
  Forall (fun r => r = Ok false) (run_calls save_file' calls w).1.
Proof.
  revert w. induction calls as [|c calls IH]; intros w; [by split|].
  cbn [run_calls]. rewrite save_file_eq.
  destruct (run_calls _ calls _) as [rs w2] eqn:Hrun.
  specialize (IH (logged (unable_to_upload (NameError "session")) w)).
  rewrite Hrun in IH. destruct IH as [Hdb Hrs]. cbn in *.
  split; [done | by constructor].
Qed.

End StorageFacts.

(** ** The class over the substrate of the spec *)

Section SpecModelFacts.

Import SpecModel.

Implicit Types (r : Row) (t : list Row) (k : option SqlValue * option SqlValue).











Section VersionIndex.

Context {APKType APKArch : Type}.
Variable APKType_value : APKType -> SqlValue.
Variable APKArch_value : APKArch -> SqlValue.
Variable generate_filename : APKType -> APKArch -> string -> string -> string.
Variable CHUNK_MAX_SIZE : Z.
Variable self_delete_file : APKType -> APKArch -> M Tables bool.

Local Abbreviation save :=
  (save_file_via APKType_value APKArch_value generate_filename CHUNK_MAX_SIZE
     autoexec_insert self_delete_file).
Local Abbreviation record := (apk_row APKType_value APKArch_value).



End VersionIndex.

End SpecModelFacts.

(** ** The scenarios, evaluated *)



(** C8: on a fresh storage, which holds no artifact for the key (0, 2),
    the helper of the spec would return true and change nothing whatever
    session it is given, but [delete_file] never reaches it: reading
    [session] raises [NameError], and the method returns no value. *)
Theorem delete_file_absent_key_raises :
  SpecModel.version_records (Some (SqlInt 0), Some (SqlInt 2))
    (db SpecModel.fresh) = [] /\
  (forall session,
      SpecModel.MadApkHelper_delete_file SpecModel.enum_value session 0 2
        SpecModel.fresh
      = (Ok true, SpecModel.fresh)) /\
  SpecModel.storage_delete_file 0 2 SpecModel.fresh
  = (Raise (NameError "session"), SpecModel.fresh).
Proof. repeat split. Qed.

(** C5: the claim that a failing delete does not abort the save is false
    on a fresh storage: the delete raises, and [save_file] returns false
    with no metadata row, no version record and no chunk written, although
    the remaining steps, had they run, would have written all three (the
    same call with a delete that returns leaves one metadata row, one
    version record and two chunks). *)
Lemma save_file_delete_failure_not_best_effort :
  SpecModel.storage_delete_file 0 2 SpecModel.fresh
  = (Raise (NameError "session"), SpecModel.fresh) /\
  SpecModel.storage_save_file 2 0 2 "1.0" "apk" [x58; x58; x58] false
    SpecModel.fresh
  = (Ok false, logged (unable_to_upload (NameError "session")) SpecModel.fresh) /\
  db (SpecModel.storage_save_file 2 0 2 "1.0" "apk" [x58; x58; x58] false
        SpecModel.fresh).2
  = SpecModel.empty /\
  (let '(res, w') :=
     SpecModel.storage_save_file_via 2 (fun _ _ => ret true)
       0 2 "1.0" "apk" [x58; x58; x58] false SpecModel.fresh in
   res = Ok true /\
   length (SpecModel.filestore_meta (db w')) = 1%nat /\
   length (SpecModel.mad_apks (db w')) = 1%nat /\
   length (SpecModel.filestore_chunks (db w')) = 2%nat).
Proof. repeat split. Qed.

Lemma save_file_delete_failure_aborts_witness :
  SpecModel.storage_delete_file 0 2 SpecModel.stocked
  = (Raise (NameError "session"), SpecModel.stocked) /\
  SpecModel.storage_save_file_via 2 SpecModel.storage_delete_file
    0 2 "1.0" "apk" [x58; x58; x58] false SpecModel.stocked
  = (Ok false, logged (unable_to_upload (NameError "session")) SpecModel.stocked).
Proof.
  split; [reflexivity|].
  apply (save_file_delete_failure_aborts
           SpecModel.enum_value SpecModel.enum_value
           SpecModel.generate_filename 2 SpecModel.autoexec_insert
           SpecModel.storage_delete_file 0 2 "1.0" "apk" [x58; x58; x58] false
           SpecModel.stocked SpecModel.stocked (NameError "session")).
  reflexivity.
Defined.

Lemma save_file_true_iff_steps_complete_witness :
  (exists w',
      steps_complete SpecModel.enum_value SpecModel.enum_value
        SpecModel.generate_filename 2 SpecModel.autoexec_insert
        (fun _ _ => ret true) 0 2 "1.0" "apk" [x58; x58; x58]
        SpecModel.fresh w') /\
  SpecModel.storage_save_file_via 0 (fun _ _ => ret true)
    0 2 "1.0" "apk" [x58; x58; x58] false SpecModel.fresh
  = (Ok false,
     logged (unable_to_upload ZeroDivisionError)
       (logged (mkLogRecord INFO "Starting upload of APK" None)
          (mkWorld
             (SpecModel.mkTables
                [ [ ("filestore_id", SqlInt 1);
                    ("filename", SqlStr "0__1.0__2__apk");
                    ("size", SqlInt 3); ("mimetype", SqlStr "apk") ] ]
                [ [ ("filestore_id", SqlInt 1); ("usage", SqlInt 0);
                    ("arch", SqlInt 2); ("version", SqlStr "1.0") ] ]
                [] 2)
             []))).
Proof.
  split.
  - destruct (save_file_true_iff_steps_complete
                SpecModel.enum_value SpecModel.enum_value
                SpecModel.generate_filename 2 SpecModel.autoexec_insert
                (fun _ _ => ret true) 0 2 "1.0" "apk" [x58; x58; x58] false
                SpecModel.fresh) as (_ & Hiff & _).
    eexists. apply Hiff. vm_compute. reflexivity.
  - destruct (save_file_true_iff_steps_complete
                SpecModel.enum_value SpecModel.enum_value
                SpecModel.generate_filename 0 SpecModel.autoexec_insert
                (fun _ _ => ret true) 0 2 "1.0" "apk" [x58; x58; x58] false
                SpecModel.fresh) as (_ & _ & Hraise & _).
    refine (proj1 (Hraise ZeroDivisionError _ _)).
    eapply splitting_raises; reflexivity.
Defined.

(** * Further properties of the splitting step *)

Lemma lookup_map_seq_lt {B : Type} (f : nat -> B) (k i : nat) :
  (i < k)%nat -> map f (seq 0 k) !! i = Some (f i).
Proof.
  intros Hi. change (map f (seq 0 k)) with (f <$> seq 0 k).
  by rewrite list_lookup_fmap, lookup_seq_lt.
Qed.

Lemma lookup_map_seq_ge {B : Type} (f : nat -> B) (k i : nat) :
  (k <= i)%nat -> map f (seq 0 k) !! i = None.
Proof.
  intros Hi. apply lookup_ge_None_2. by rewrite length_map, length_seq.
Qed.

(** The number of windows the comprehension takes, as a natural number. *)
Lemma chunk_count_bounds (n C : Z) :
  0 <= n -> 0 < C ->
  (Z.of_nat (Z.to_nat ((n + C - 1) / C)) - 1) * C < n
    <= Z.of_nat (Z.to_nat ((n + C - 1) / C)) * C.
Proof.
  intros Hn HC. destruct (ceil_div_spec n C Hn HC) as [-> Hb].
  rewrite Z2Nat.id by nia. done.
Qed.

(** X1 (random access): with a positive chunk size, byte [j] of the
    payload is byte [j mod C] of chunk [j / C], and positions past the end
    of the payload fall outside the chunks. *)
Theorem chunked_data_list_lookup (P : list byte) (C : Z) (j : nat) :
  0 < C ->
  exists chunks,
    chunked_data_list P C = Ok chunks /\
    P !! j = match chunks !! (j / Z.to_nat C)%nat with
             | Some chunk => chunk !! (j mod Z.to_nat C)%nat
             | None => None
             end.
Proof.
  intros HC. eexists. split; [by apply chunked_data_list_pos|].
  pose proof (chunk_count_bounds (Py.len P) C ltac:(lia) HC) as Hk.
  set (c := Z.to_nat C) in *. set (k := Z.to_nat _) in *.
  assert (Hc : (0 < c)%nat) by lia.
  assert (HcC : Z.of_nat c = C) by lia.
  pose proof (Nat.div_mod_eq j c) as Hj.
  pose proof (Nat.mod_upper_bound j c ltac:(lia)) as Hm.
  destruct (decide (j / c < k)%nat) as [Hlt|Hge].
  - rewrite lookup_map_seq_lt by done. unfold window.
    rewrite lookup_take_lt, lookup_drop by done. f_equal. lia.
  - rewrite lookup_map_seq_ge by lia. apply lookup_ge_None_2. nia.
Qed.

Lemma chunked_data_list_lookup_witness :
  0 < 2 /\
  exists chunks,
    chunked_data_list [x01; x02; x03; x04; x05] 2 = Ok chunks /\
    [x01; x02; x03; x04; x05] !! 4%nat
    = match chunks !! (4 / Z.to_nat 2)%nat with
      | Some chunk => chunk !! (4 mod Z.to_nat 2)%nat
      | None => None
      end.
Proof.
  split; [lia|].
  apply (chunked_data_list_lookup [x01; x02; x03; x04; x05] 2 4). lia.
Defined.

(** X2 (no empty chunk): with a positive chunk size every chunk holds at
    least one byte and at most [C], and there is no chunk at all exactly
    when the payload is empty. *)
Theorem chunked_data_list_nonempty_chunks (P : list byte) (C : Z) :
  0 < C ->
  exists chunks,
    chunked_data_list P C = Ok chunks /\
    Forall (fun chunk : list byte => 0 < Py.len chunk <= C) chunks /\
    (chunks = [] <-> P = []).
Proof.
  intros HC. eexists. split; [by apply chunked_data_list_pos|].
  pose proof (chunk_count_bounds (Py.len P) C ltac:(lia) HC) as Hk.
  set (c := Z.to_nat C) in *. set (k := Z.to_nat _) in *.
  split.
  - apply Forall_forall. intros chunk Hin.
    apply list_elem_of_In, in_map_iff in Hin as (i & <- & Hi).
    apply in_seq in Hi. rewrite length_window. nia.
  - split.
    + intros Hnil. apply (f_equal length) in Hnil.
      rewrite length_map, length_seq in Hnil. cbn in Hnil.
      apply length_zero_iff_nil. lia.
    + intros ->. cbn in Hk. replace k with 0%nat by nia. done.
Qed.

Lemma chunked_data_list_nonempty_chunks_witness :
  0 < 2 /\
  exists chunks,
    chunked_data_list [x01; x02; x03] 2 = Ok chunks /\
    Forall (fun chunk : list byte => 0 < Py.len chunk <= 2) chunks /\
    (chunks = [] <-> [x01; x02; x03] = []).
Proof.
  split; [lia|].
  apply (chunked_data_list_nonempty_chunks [x01; x02; x03] 2). lia.
Defined.

(** X3 (small payload): a non-empty payload no longer than the chunk size
    is stored as one chunk, the payload itself. *)
Theorem chunked_data_list_single_chunk (P : list byte) (C : Z) :
  0 < Py.len P <= C ->
  chunked_data_list P C = Ok [P].
Proof.
  intros [Hpos Hle]. rewrite chunked_data_list_pos by lia.
  assert ((Py.len P + C - 1) / C = 1) as ->.
  { symmetry. apply (Z.div_unique _ _ _ (Py.len P - 1)); lia. }
  change (Z.to_nat 1) with 1%nat. cbn [seq map]. unfold window.
  cbn [Nat.mul]. rewrite drop_0, take_ge by lia. done.
Qed.

Lemma chunked_data_list_single_chunk_witness :
  0 < Py.len [x01; x02; x03] <= 8 /\
  chunked_data_list [x01; x02; x03] 8 = Ok [[x01; x02; x03]].
Proof.
  assert (H : 0 < Py.len [x01; x02; x03] <= 8) by (cbn; lia).
  split; [exact H|].
  exact (chunked_data_list_single_chunk [x01; x02; x03] 8 H).
Defined.

(** With a negative chunk size the comprehension has an element only for
    a payload of at most one byte. *)
Lemma negative_count_small (n C : Z) :
  0 <= n -> C < 0 -> 1 <= (n + C - 1) / C -> n <= 1.
Proof.
  intros Hn HC Hq.
  pose proof (Z.div_mod (n + C - 1) C ltac:(lia)) as Hdm.
  pose proof (Z.mod_neg_bound (n + C - 1) C HC) as Hm.
  nia.
Qed.

Lemma negative_count_le_2 (n C : Z) :
  0 <= n -> C < 0 -> (n + C - 1) / C <= 2.
Proof.
  intros Hn HC.
  pose proof (Z.div_mod (n + C - 1) C ltac:(lia)) as Hdm.
  pose proof (Z.mod_neg_bound (n + C - 1) C HC) as Hm.
  nia.
Qed.

Lemma slice_negative_empty (P : list byte) (C I : Z) :
  C < 0 -> 0 <= I -> Py.len P <= 1 ->
  Py.slice P (I * C) ((I + 1) * C) = [].
Proof.
  intros HC HI Hn. unfold Py.slice, Py.adjust_index.
  assert (Hstop : (I + 1) * C < 0) by nia.
  destruct (Z.ltb_spec ((I + 1) * C) 0) as [_|?]; [|lia].
  assert (Z.max 0 ((I + 1) * C + Py.len P) = 0) as -> by nia.
  replace (Z.to_nat (0 - _)) with 0%nat; [done|].
  destruct (Z.ltb_spec (I * C) 0); lia.
Qed.

(** X4 (negative chunk size): the splitting step raises nothing for a
    negative chunk size.  It returns at most two chunks, every one of them
    empty, and none at all for a payload of two bytes or more; joining
    them gives the empty payload, so a non-empty payload is lost. *)
Theorem chunked_data_list_negative (P : list byte) (C : Z) :
  C < 0 ->
  exists chunks,
    chunked_data_list P C = Ok chunks /\
    Forall (fun chunk : list byte => chunk = []) chunks /\
    (length chunks <= 2)%nat /\
    (2 <= Py.len P -> chunks = []) /\
    join chunks = [] /\
    (P <> [] -> join chunks <> P).
Proof.
  intros HC. unfold chunked_data_list, Py.floordiv.
  destruct (Z.eqb_spec C 0) as [?|_]; [lia|].
  eexists. split; [reflexivity|].
  set (q := (Py.len P + C - 1) / C).
  assert (Hempty :
    Forall (fun chunk : list byte => chunk = [])
      (map (fun i => Py.slice P (i * C) ((i + 1) * C)) (Py.range q))).
  { apply Forall_forall. intros chunk Hin.
    apply list_elem_of_In, in_map_iff in Hin as (i & <- & Hi).
    unfold Py.range in Hi. apply in_map_iff in Hi as (j & <- & Hj).
    apply in_seq in Hj. apply slice_negative_empty; [done|lia|].
    apply (negative_count_small _ C); [lia|done|]. fold q. lia. }
  assert (Hjoin :
    join (map (fun i => Py.slice P (i * C) ((i + 1) * C)) (Py.range q)) = []).
  { unfold join. induction Hempty as [|chunk chunks -> _ IH]; [done|].
    cbn. exact IH. }
  split; [exact Hempty|]. split; [|split; [|split]].
  - unfold Py.range. rewrite !length_map, length_seq.
    pose proof (negative_count_le_2 (Py.len P) C ltac:(lia) HC). fold q in H.
    lia.
  - intros Hlen. unfold Py.range.
    replace (Z.to_nat q) with 0%nat; [done|].
    destruct (Z.le_gt_cases 1 q) as [Hq|Hq]; [|lia].
    pose proof (negative_count_small (Py.len P) C ltac:(lia) HC Hq). lia.
  - exact Hjoin.
  - intros HP. rewrite Hjoin. done.
Qed.

Lemma chunked_data_list_negative_witness :
  -3 < 0 /\
  exists chunks,
    chunked_data_list [x01; x02; x03; x04] (-3) = Ok chunks /\
    chunks = [] /\ join chunks <> [x01; x02; x03; x04].
Proof.
  split; [lia|].
  destruct (chunked_data_list_negative [x01; x02; x03; x04] (-3) ltac:(lia))
    as (chunks & Heq & _ & _ & Hnone & _ & Hlost).
  exists chunks. split; [exact Heq|]. split.
  - apply Hnone. cbn. lia.
  - apply Hlost. discriminate.
Defined.

(** The comprehension, taken apart at its first chunk. *)
Lemma chunked_data_list_cons (P : list byte) (C : Z) :
  0 < C -> P <> [] ->
  chunked_data_list P C =
    Ok (take (Z.to_nat C) P
          :: map (window (Z.to_nat C) (drop (Z.to_nat C) P))
               (seq 0 (Z.to_nat ((Py.len (drop (Z.to_nat C) P) + C - 1) / C)))).
Proof.
  intros HC HP. rewrite chunked_data_list_pos by done.
  assert (Hn : 0 < Py.len P) by (destruct P; [done | cbn; lia]).
  assert (Z.to_nat ((Py.len P + C - 1) / C)
          = S (Z.to_nat ((Py.len (drop (Z.to_nat C) P) + C - 1) / C))) as ->.
  { rewrite length_drop.
    destruct (Z.le_gt_cases C (Py.len P)) as [Hge|Hlt].
    - replace (Z.of_nat (length P - Z.to_nat C)) with (Py.len P - C) by lia.
      replace (Py.len P + C - 1) with (Py.len P - C + C - 1 + 1 * C) by lia.
      rewrite Z.div_add by lia.
      pose proof (Z.div_pos (Py.len P - C + C - 1) C ltac:(lia) HC). lia.
    - replace (Z.of_nat (length P - Z.to_nat C)) with 0 by lia.
      replace ((0 + C - 1) / C) with 0 by (symmetry; apply Z.div_small; lia).
      replace ((Py.len P + C - 1) / C) with 1; [done|].
      apply (Z.div_unique _ _ _ (Py.len P - 1)); lia. }
  change (seq 0 (S ?k)) with (0%nat :: seq 1 k). cbn [map].
  rewrite windows_shift. unfold window at 1. cbn [Nat.mul]. by rewrite drop_0.
Qed.

(** X5 (first chunk and remainder): with a positive chunk size an empty
    payload gives no chunk, and a non-empty payload gives its first [C]
    bytes followed by the chunks of what remains after them. *)
Theorem chunked_data_list_unfold (P : list byte) (C : Z) :
  0 < C ->
  chunked_data_list [] C = Ok [] /\
  (P <> [] ->
   exists rest,
     chunked_data_list (drop (Z.to_nat C) P) C = Ok rest /\
     chunked_data_list P C = Ok (take (Z.to_nat C) P :: rest)).
Proof.
  intros HC. split.
  - rewrite chunked_data_list_pos by done. cbn [length].
    change (Z.of_nat 0) with 0.
    replace ((0 + C - 1) / C) with 0 by (symmetry; apply Z.div_small; lia).
    reflexivity.
  - intros HP. eexists. split; [by apply chunked_data_list_pos|].
    by apply chunked_data_list_cons.
Qed.

Lemma chunked_data_list_unfold_witness :
  0 < 2 /\
  [x01; x02; x03] <> [] /\
  exists rest,
    chunked_data_list (drop (Z.to_nat 2) [x01; x02; x03]) 2 = Ok rest /\
    chunked_data_list [x01; x02; x03] 2
    = Ok (take (Z.to_nat 2) [x01; x02; x03] :: rest).
Proof.
  split; [lia|]. split; [discriminate|].
  apply (proj2 (chunked_data_list_unfold [x01; x02; x03] 2 ltac:(lia))).
  discriminate.
Defined.

Lemma map_seq_offset {B : Type} (f : nat -> B) (a k : nat) :
  map f (seq a k) = map (fun i => f (a + i)%nat) (seq 0 k).
Proof.
  revert a. induction k as [|k IH]; intros a; [done|].
  cbn [seq map]. rewrite Nat.add_0_r. f_equal.
  rewrite IH, <- (seq_shift k 0), map_map.
  apply map_ext. intros i. f_equal. lia.
Qed.

(** X6 (aligned append): with a positive chunk size, when the length of
    [P] is a multiple of the chunk size, the chunks of [P ++ Q] are the
    chunks of [P] followed by the chunks of [Q]. *)
Theorem chunked_data_list_app (P Q : list byte) (C m : Z) :
  0 < C -> Py.len P = m * C ->
  exists chunksP chunksQ,
    chunked_data_list P C = Ok chunksP /\
    chunked_data_list Q C = Ok chunksQ /\
    Py.len chunksP = m /\
    chunked_data_list (P ++ Q)%list C = Ok (chunksP ++ chunksQ)%list.
Proof.
  intros HC HP.
  assert (Hm : 0 <= m) by nia.
  rewrite !chunked_data_list_pos by done. eexists _, _.
  split; [reflexivity|]. split; [reflexivity|].
  set (c := Z.to_nat C).
  assert (HkP : Z.to_nat ((Py.len P + C - 1) / C) = Z.to_nat m).
  { f_equal. symmetry. apply (Z.div_unique _ _ _ (C - 1)); lia. }
  assert (HkPQ : Z.to_nat ((Py.len (P ++ Q)%list + C - 1) / C)
                 = (Z.to_nat m + Z.to_nat ((Py.len Q + C - 1) / C))%nat).
  { rewrite length_app.
    replace (Z.of_nat (length P + length Q) + C - 1)
      with (Py.len Q + C - 1 + m * C) by lia.
    rewrite Z.div_add by lia.
    pose proof (Z.div_pos (Py.len Q + C - 1) C ltac:(lia) HC). lia. }
  rewrite HkP, HkPQ. split; [rewrite length_map, length_seq; lia|].
  f_equal. rewrite seq_app, map_app. f_equal.
  - apply map_ext_in. intros i Hi. apply in_seq in Hi. unfold window.
    rewrite drop_app_le by nia. apply take_app_le. rewrite length_drop. nia.
  - rewrite map_seq_offset. apply map_ext. intros i. unfold window.
    cbn [Nat.add].
    replace ((Z.to_nat m + i) * c)%nat with (length P + i * c)%nat by nia.
    rewrite <- drop_drop. by rewrite drop_app_length.
Qed.

Lemma chunked_data_list_app_witness :
  0 < 2 /\ Py.len [x01; x02; x03; x04] = 2 * 2 /\
  exists chunksP chunksQ,
    chunked_data_list [x01; x02; x03; x04] 2 = Ok chunksP /\
    chunked_data_list [x05; x06; x07] 2 = Ok chunksQ /\
    Py.len chunksP = 2 /\
    chunked_data_list ([x01; x02; x03; x04] ++ [x05; x06; x07])%list 2
    = Ok (chunksP ++ chunksQ)%list.
Proof.
  split; [lia|]. split; [reflexivity|].
  apply (chunked_data_list_app [x01; x02; x03; x04] [x05; x06; x07] 2 2);
    [lia | reflexivity].
Defined.

(** * Further properties of [save_file] *)

Section SaveFacts.

Context {DB APKType APKArch : Type}.
Variable APKType_value : APKType -> SqlValue.
Variable APKArch_value : APKArch -> SqlValue.
Variable generate_filename : APKType -> APKArch -> string -> string -> string.
Variable MadApkHelper_delete_file :
  PyObj -> APKType -> APKArch -> M DB bool.
Variable autoexec_insert : string -> Row -> option string -> M DB Z.

(** On an open stream the stream model is the model above, applied to
    the content of the stream. *)
Lemma save_file_via_stream_open (CHUNK_MAX_SIZE : Z)
  (self_delete_file : APKType -> APKArch -> M DB bool)
  package architecture version mimetype (data : BytesIO) retry (w : World DB) :
  closed data = false ->
  save_file_via_stream APKType_value APKArch_value generate_filename
    CHUNK_MAX_SIZE autoexec_insert self_delete_file package architecture
    version mimetype data retry w
  = save_file_via APKType_value APKArch_value generate_filename CHUNK_MAX_SIZE
      autoexec_insert self_delete_file package architecture version mimetype
      (getvalue data) retry w.
Proof.
  destruct data as [c buffer]. cbn [closed getvalue]. intros ->.
  reflexivity.
Qed.

Lemma chunks_inserted_total new_id chunks (w : World DB) :
  (forall id chunk w0,
      exists r w',
        autoexec_insert "filestore_chunks" (chunk_row id chunk) None w0
        = (Ok r, w')) ->
  exists w', chunks_inserted autoexec_insert new_id chunks w w'.
Proof.
  intros Htotal. revert w. induction chunks as [|chunk chunks IH]; intros w.
  - exists w. constructor.
  - destruct (Htotal new_id chunk w) as (r & w1 & Hins).
    destruct (IH w1) as (w' & Hrest).
    exists w'. by econstructor.
Qed.

(** X7 (a working backend): for a payload that is an open stream and a
    chunk size other than 0, when the method bound to [self.delete_file]
    returns and the three kinds of insert this call issues (the metadata
    row, the version record with [optype='ON DUPLICATE'], the chunk rows)
    return in whatever state they are issued, [save_file] returns
    true. *)
Theorem save_file_via_stream_succeeds (CHUNK_MAX_SIZE : Z)
  (self_delete_file : APKType -> APKArch -> M DB bool)
  package architecture version mimetype (data : BytesIO) retry
  (w w1 : World DB) d :
  closed data = false ->
  CHUNK_MAX_SIZE <> 0 ->
  self_delete_file package architecture w = (Ok d, w1) ->
  (forall w0,
      exists r w',
        autoexec_insert "filestore_meta"
          (meta_row (generate_filename package architecture version mimetype)
             (Py.len (getvalue data)) mimetype) None w0 = (Ok r, w')) ->
  (forall id w0,
      exists r w',
        autoexec_insert "mad_apks"
          (apk_row APKType_value APKArch_value id package architecture version)
          (Some "ON DUPLICATE") w0 = (Ok r, w')) ->
  (forall id chunk w0,
      exists r w',
        autoexec_insert "filestore_chunks" (chunk_row id chunk) None w0
        = (Ok r, w')) ->
  exists w',
    save_file_via_stream APKType_value APKArch_value generate_filename
      CHUNK_MAX_SIZE autoexec_insert self_delete_file package architecture
      version mimetype data retry w
    = (Ok true, w').
Proof.
  intros Hopen HC Hd Hmeta Hver Hchunk.
  rewrite save_file_via_stream_open by done.
  destruct (Hmeta w1) as (new_id & w2 & Hm).
  destruct (Hver new_id w2) as (r & w3 & Hv).
  destruct (chunked_data_list_nonzero (getvalue data) CHUNK_MAX_SIZE HC)
    as (chunks & Hs).
  destruct (chunks_inserted_total new_id chunks
              (logged (mkLogRecord INFO "Starting upload of APK" None) w3)
              Hchunk) as (w4 & Hi).
  eexists. apply save_file_via_returned, save_file_try_ok.
  split; [reflexivity|].
  exists d, w1, new_id, w2, r, w3, chunks, w4. done.
Qed.

(** X10 (closed stream): when the payload is a closed stream and the
    method bound to [self.delete_file] returns, [save_file] returns
    false: taking the buffer raises [ValueError] inside the [try], no
    insert is issued, and the world is the one the delete left, with the
    failure logged. *)
Theorem save_file_via_stream_closed (CHUNK_MAX_SIZE : Z)
  (self_delete_file : APKType -> APKArch -> M DB bool)
  package architecture version mimetype (data : BytesIO) retry
  (w w1 : World DB) d :
  closed data = true ->
  self_delete_file package architecture w = (Ok d, w1) ->
  save_file_via_stream APKType_value APKArch_value generate_filename
    CHUNK_MAX_SIZE autoexec_insert self_delete_file package architecture
    version mimetype data retry w
  = (Ok false,
     logged (unable_to_upload (ValueError "I/O operation on closed file.")) w1).
Proof.
  intros Hclosed Hd.
  unfold save_file_via_stream, try_except, save_file_try_stream.
  unfold bind at 1. rewrite Hd.
  unfold bind at 1, lift, getbuffer. rewrite Hclosed. reflexivity.
Qed.

(** X8 (chunk size zero): with a chunk size of 0, once the delete, the
    metadata insert and the version-record write have returned,
    [save_file] returns false on the division by zero; the world is the
    one those writes left, with the start of the upload and the failure
    logged, and no chunk insert has been attempted. *)
Theorem save_file_via_zero_chunk_size
  (self_delete_file : APKType -> APKArch -> M DB bool)
  package architecture version mimetype data retry
  (w w1 w2 w3 : World DB) d new_id r :
  self_delete_file package architecture w = (Ok d, w1) ->
  autoexec_insert "filestore_meta"
    (meta_row (generate_filename package architecture version mimetype)
       (Py.len data) mimetype) None w1 = (Ok new_id, w2) ->
  autoexec_insert "mad_apks"
    (apk_row APKType_value APKArch_value new_id package architecture version)
    (Some "ON DUPLICATE") w2 = (Ok r, w3) ->
  save_file_via APKType_value APKArch_value generate_filename 0
    autoexec_insert self_delete_file package architecture version mimetype
    data retry w
  = (Ok false,
     logged (unable_to_upload ZeroDivisionError)
       (logged (mkLogRecord INFO "Starting upload of APK" None) w3)).
Proof.
  intros Hd Hm Hv. apply save_file_via_caught, save_file_try_raise.
  eapply splitting_raises; [exact Hd | exact Hm | exact Hv | | reflexivity].
  reflexivity.
Qed.

(** X9 (a sequence of saves): [n] calls of [save_file], whatever their
    arguments, return false [n] times, leave the database as it was and
    add exactly [n] critical records to the log, one per call. *)
Theorem run_calls_save_file_log (CHUNK_MAX_SIZE : Z)
  (calls : list (SaveCall APKType APKArch)) (w : World DB) :
  run_calls
    (save_file APKType_value APKArch_value generate_filename CHUNK_MAX_SIZE
       MadApkHelper_delete_file autoexec_insert) calls w
  = (replicate (length calls) (Ok false),
     mkWorld (db w)
       (log w ++ replicate (length calls)
                   (unable_to_upload (NameError "session")))).
Proof.
  revert w. induction calls as [|c calls IH]; intros w.
  - cbn. rewrite app_nil_r. by destruct w.
  - cbn [run_calls length replicate]. rewrite save_file_eq, IH.
    cbn. by rewrite <- app_assoc.
Qed.

End SaveFacts.

Lemma save_file_via_stream_succeeds_witness :
  closed (mkBytesIO false [x58; x58; x58]) = false /\
  2 <> 0 /\
  exists w',
    save_file_via_stream SpecModel.enum_value SpecModel.enum_value
      SpecModel.generate_filename 2 SpecModel.autoexec_insert
      (fun _ _ => ret true) 0 2 "1.0" "apk"
      (mkBytesIO false [x58; x58; x58]) false SpecModel.stocked
    = (Ok true, w').
Proof.
  split; [reflexivity|]. split; [lia|].
  apply (save_file_via_stream_succeeds SpecModel.enum_value
           SpecModel.enum_value SpecModel.generate_filename
           SpecModel.autoexec_insert 2 (fun _ _ => ret true)
           0 2 "1.0" "apk" (mkBytesIO false [x58; x58; x58]) false
           SpecModel.stocked SpecModel.stocked true).
  - reflexivity.
  - lia.
  - reflexivity.
  - intros w0. eexists _, _. reflexivity.
  - intros id w0. eexists _, _. reflexivity.
  - intros id chunk w0. eexists _, _. reflexivity.
Defined.

Lemma save_file_via_stream_closed_witness :
  closed (mkBytesIO true [x58; x58; x58]) = true /\
  save_file_via_stream SpecModel.enum_value SpecModel.enum_value
    SpecModel.generate_filename 2 SpecModel.autoexec_insert
    (fun _ _ => ret true) 0 2 "1.0" "apk"
    (mkBytesIO true [x58; x58; x58]) false SpecModel.stocked
  = (Ok false,
     logged (unable_to_upload (ValueError "I/O operation on closed file."))
       SpecModel.stocked).
Proof.
  split; [reflexivity|].
  apply (save_file_via_stream_closed SpecModel.enum_value
           SpecModel.enum_value SpecModel.generate_filename
           SpecModel.autoexec_insert 2 (fun _ _ => ret true)
           0 2 "1.0" "apk" (mkBytesIO true [x58; x58; x58]) false
           SpecModel.stocked SpecModel.stocked true);
    reflexivity.
Defined.

Lemma save_file_via_zero_chunk_size_witness :
  SpecModel.storage_save_file_via 0 (fun _ _ => ret true)
    0 2 "1.0" "apk" [x58; x58; x58] false SpecModel.stocked
  = (Ok false,
     logged (unable_to_upload ZeroDivisionError)
       (logged (mkLogRecord INFO "Starting upload of APK" None)
          (SpecModel.autoexec_insert "mad_apks"
             (apk_row SpecModel.enum_value SpecModel.enum_value 3 0 2 "1.0")
             (Some "ON DUPLICATE")
             (SpecModel.autoexec_insert "filestore_meta"
                (meta_row "0__1.0__2__apk" 3 "apk") None SpecModel.stocked).2).2)).
Proof.
  eapply (save_file_via_zero_chunk_size SpecModel.enum_value
            SpecModel.enum_value SpecModel.generate_filename
            SpecModel.autoexec_insert (fun _ _ => ret true)
            0 2 "1.0" "apk" [x58; x58; x58] false SpecModel.stocked);
    reflexivity.
Defined.
